(** * server/server.py: the FCM sample's message builders, transport and CLI

    A shallow embedding of [src/server/server.py].  Python values are an
    inductive type, a [dict] is an association list in insertion order
    (the order [json.dumps] writes it in), exceptions are an error type
    and the effects of the script (lines printed, the token exchange, the
    HTTP POST) are an event log threaded through a small monad.

    The library calls whose answers the script depends on ([json.loads],
    oauth2client's token exchange, [requests.post]) are fields of an
    environment record [Env], and every theorem is stated for all of
    them; the output of [json.dumps] is kept as the value it serializes.
    [main] starts from the parsed [args.message]: what argparse does
    with a malformed command line is not modelled. *)

From Stdlib Require Import String Ascii List ZArith Bool Lia.
From Stdlib Require Import Floats.SpecFloat.
From ExtLib Require Import Structures.Monad.
Import ListNotations.
Import MonadNotation.

Local Open Scope string_scope.
Local Open Scope list_scope.
Local Open Scope monad_scope.

(* ================================================================== *)
(** ** Python values *)

Module Py.

#[local] Unset Elimination Schemes.

(** The values [json.loads] produces and [json.dumps] accepts. *)
Inductive value : Type :=
| PyNone
| PyBool (b : bool)
| PyInt (z : Z)
| PyFloat (f : spec_float)
| PyStr (s : string)
| PyList (l : list value)
| PyDict (d : list (string * value)).

#[local] Set Elimination Schemes.

(** The exceptions the script can let escape. *)
Inductive exn : Type :=
| JSONDecodeError
| AttributeError
| KeyError (k : string)
| TypeError
| LibraryError (what : string).

Inductive result (A : Type) : Type :=
| Ok (a : A)
| Raise (e : exn).
Arguments Ok {A} a.
Arguments Raise {A} e.

Definition rbind {A B : Type} (r : result A) (f : A -> result B) : result B :=
  match r with
  | Ok a => f a
  | Raise e => Raise e
  end.

(** Truth value testing, as [if x:] does it. *)
Definition truthy (v : value) : bool :=
  match v with
  | PyNone => false
  | PyBool b => b
  | PyInt z => negb (Z.eqb z 0)
  | PyFloat (S754_zero _) => false
  | PyFloat _ => true
  | PyStr EmptyString => false
  | PyStr _ => true
  | PyList [] => false
  | PyList _ => true
  | PyDict [] => false
  | PyDict _ => true
  end.

(** *** dict operations on the insertion-ordered association list *)

Definition dict := list (string * value).

Fixpoint dict_lookup (d : dict) (k : string) : option value :=
  match d with
  | [] => None
  | (k', v) :: rest => if String.eqb k' k then Some v else dict_lookup rest k
  end.

Definition dict_contains (d : dict) (k : string) : bool :=
  match dict_lookup d k with
  | Some _ => true
  | None => false
  end.

Definition dict_keys (d : dict) : list string := map fst d.

(** [d[k] = v]: an existing key keeps its place, a new key goes last. *)
Fixpoint dict_store (d : dict) (k : string) (v : value) : dict :=
  match d with
  | [] => [(k, v)]
  | (k', v') :: rest =>
      if String.eqb k' k then (k', v) :: rest
      else (k', v') :: dict_store rest k v
  end.

(** [x.get(k)]: [None] for a missing key; only a dict has the method. *)
Definition get (x : value) (k : string) : result value :=
  match x with
  | PyDict d =>
      match dict_lookup d k with
      | Some v => Ok v
      | None => Ok PyNone
      end
  | _ => Raise AttributeError
  end.

(** [x[k]] for a string key. *)
Definition getitem (x : value) (k : string) : result value :=
  match x with
  | PyDict d =>
      match dict_lookup d k with
      | Some v => Ok v
      | None => Raise (KeyError k)
      end
  | _ => Raise TypeError
  end.

(** [x[k] = v] for a string key. *)
Definition setitem (x : value) (k : string) (v : value) : result value :=
  match x with
  | PyDict d => Ok (PyDict (dict_store d k v))
  | _ => Raise TypeError
  end.

(** [x[k1]...[kn][k] = v].  Python reaches the innermost dict by
    reference and mutates it in place, so the change is seen from [x];
    on values this is the store written back along the path. *)
Fixpoint setitem_at (x : value) (path : list string) (k : string) (v : value)
  : result value :=
  match path with
  | [] => setitem x k v
  | p :: path' =>
      rbind (getitem x p) (fun inner =>
      rbind (setitem_at inner path' k v) (fun inner' =>
      setitem x p inner'))
  end.

(** Reading along a path of keys; [None] when a key is absent or a
    non-dict is met on the way. *)
Fixpoint lookup_path (x : value) (path : list string) : option value :=
  match path with
  | [] => Some x
  | p :: path' =>
      match x with
      | PyDict d =>
          match dict_lookup d p with
          | Some inner => lookup_path inner path'
          | None => None
          end
      | _ => None
      end
  end.

(** Does the key occur in any dict nested in the value, at any depth? *)
Fixpoint has_key (k : string) (x : value) : bool :=
  match x with
  | PyList l =>
      (fix in_list (l : list value) : bool :=
         match l with
         | [] => false
         | y :: l' => has_key k y || in_list l'
         end) l
  | PyDict d =>
      (fix in_dict (d : list (string * value)) : bool :=
         match d with
         | [] => false
         | (k', y) :: d' => String.eqb k' k || has_key k y || in_dict d'
         end) d
  | _ => false
  end.

#[global] Instance Monad_result : Monad result :=
  {| ret := @Ok; bind := @rbind |}.

End Py.
Import Py.

(* ================================================================== *)
(** ** The message builders *)

(** [_build_common_message()] *)
Definition _build_common_message : result value :=
  Ok (PyDict [
    ("message", PyDict [
      ("topic", PyStr "news");
      ("notification", PyDict [
        ("title", PyStr "FCM Notification");
        ("body", PyStr "Notification from FCM")
      ])
    ])
  ]).

(** [_build_override_message()] *)
Definition _build_override_message : result value :=
  fcm_message <- _build_common_message ;;
  let apns_override := PyDict [
    ("payload", PyDict [
      ("aps", PyDict [
        ("badge", PyInt 1)
      ])
    ]);
    ("headers", PyDict [
      ("apns-priority", PyStr "10")
    ])
  ] in
  let android_override := PyDict [
    ("notification", PyDict [
      ("click_action", PyStr "android.intent.action.MAIN")
    ])
  ] in
  fcm_message <- setitem_at fcm_message ["message"] "android" android_override ;;
  fcm_message <- setitem_at fcm_message ["message"] "apns" apns_override ;;
  Ok fcm_message.

(** [_build_common_custom_message(title, body, topic, data, link, icon)] *)
Definition _build_common_custom_message
  (title body topic data link icon : value) : result value :=
  let message := PyDict [
    ("message", PyDict [
      ("topic", topic);
      ("notification", PyDict [
        ("title", title);
        ("body", body)
      ]);
      ("data", data);
      ("delivery_receipt_requested", PyBool true)
    ])
  ] in
  message <- (if truthy link
              then setitem_at message ["message"; "notification"] "click_action" link
              else Ok message) ;;
  message <- (if truthy icon
              then setitem_at message ["message"; "notification"] "icon" icon
              else Ok message) ;;
  Ok message.

(* ================================================================== *)
(** ** Effects: what the script prints and which calls leave the process *)

(** Text handed to [print] or sent as a request body: a string, or the
    output of [json.dumps(v)] / [json.dumps(v, indent=n)], kept as the
    value it serializes. *)
Inductive text : Type :=
| Lit (s : string)
| Dumps (indent : option nat) (v : value).

Record request : Type := MkRequest {
  url : string;
  data : text;
  headers : list (string * string)
}.

Record response : Type := MkResponse {
  status_code : Z;
  resp_text : string
}.

Inductive event : Type :=
| EvPrint (line : text)
| EvAccessToken
| EvPost (r : request).

(** The libraries and the startup state the script runs against.
    [PROJECT_ID] is the string the module-level code read from the
    service-account file; [json_loads] is [json.loads] on a [str];
    [access_token] is what oauth2client's exchange gives (the token or an
    exception); [http_post] is the server's answer to [requests.post]
    (a response or a transport exception). *)
Record Env : Type := MkEnv {
  PROJECT_ID : string;
  json_loads : string -> result value;
  access_token : result string;
  http_post : request -> result response
}.

(** A run: the events in order, and how the run ended. *)
Record io (A : Type) : Type := MkIO {
  events : list event;
  outcome : result A
}.
Arguments MkIO {A} events outcome.
Arguments events {A} i.
Arguments outcome {A} i.

Definition io_bind {A B : Type} (m : io A) (f : A -> io B) : io B :=
  match outcome m with
  | Ok a => MkIO (events m ++ events (f a)) (outcome (f a))
  | Raise e => MkIO (events m) (Raise e)
  end.

#[global] Instance Monad_io : Monad io :=
  {| ret := fun _ a => MkIO [] (Ok a); bind := @io_bind |}.

(** A pure, fallible step inside a run. *)
Definition lift {A : Type} (r : result A) : io A := MkIO [] r.

Definition print (line : text) : io unit := MkIO [EvPrint line] (Ok tt).

(** The exit status of the interpreter: 0 when [main] returns, 1 when an
    exception escapes. *)
Definition exit_status {A : Type} (run : io A) : Z :=
  match outcome run with
  | Ok _ => 0
  | Raise _ => 1
  end.

(** The requests POSTed during a run, in order. *)
Fixpoint posts (l : list event) : list request :=
  match l with
  | [] => []
  | EvPost r :: l' => r :: posts l'
  | _ :: l' => posts l'
  end.

(** The calls that leave the process: token exchanges and POSTs. *)
Fixpoint network_calls (l : list event) : nat :=
  match l with
  | [] => 0
  | EvPrint _ :: l' => network_calls l'
  | _ :: l' => S (network_calls l')
  end.

Definition header (r : request) (name : string) : option string :=
  match find (fun h => String.eqb (fst h) name) (headers r) with
  | Some h => Some (snd h)
  | None => None
  end.

(* ================================================================== *)
(** ** The script *)

Definition usage : string :=
  "Invalid command. Please use one of the following commands:
python messaging.py --message=common-message
python messaging.py --message=override-message".

Definition sent_line : string :=
  "Message sent to Firebase for delivery, response:".

Definition failed_line : string := "Unable to send message to Firebase".

Section Script.

Variable E : Env.

Definition BASE_URL : string := "https://fcm.googleapis.com".
Definition FCM_ENDPOINT : string :=
  "v1/projects/" ++ PROJECT_ID E ++ "/messages:send".
Definition FCM_URL : string := BASE_URL ++ "/" ++ FCM_ENDPOINT.

(** [_get_access_token()] *)
Definition _get_access_token : io string :=
  MkIO [EvAccessToken] (access_token E).

(** [requests.post(url, data=..., headers=...)] *)
Definition requests_post (u : string) (d : text) (h : list (string * string))
  : io response :=
  let r := MkRequest u d h in
  MkIO [EvPost r] (http_post E r).

(** [_send_fcm_message(fcm_message)] *)
Definition _send_fcm_message (fcm_message : value) : io unit :=
  token <- _get_access_token ;;
  let headers := [
    ("Authorization", ("Bearer " ++ token)%string);
    ("Content-Type", "application/json; UTF-8")
  ] in
  resp <- requests_post FCM_URL (Dumps None fcm_message) headers ;;
  if Z.eqb (status_code resp) 200 then
    print (Lit sent_line) ;;
    print (Lit (resp_text resp))
  else
    print (Lit failed_line) ;;
    print (Lit (resp_text resp)).

(** Lines 154-161 of [main]: the six [message_params.get(...)] and the
    call of the custom builder. *)
Definition custom_message_of_params (message_params : value) : result value :=
  title <- get message_params "title" ;;
  body <- get message_params "body" ;;
  topic <- get message_params "topic" ;;
  data <- get message_params "data" ;;
  link <- get message_params "link" ;;
  icon <- get message_params "icon" ;;
  _build_common_custom_message title body topic data link icon.

(** [args.message] is [None] without the flag and a [str] with it. *)
Definition arg_value (message : option string) : value :=
  match message with
  | Some s => PyStr s
  | None => PyNone
  end.

Definition arg_is (message : option string) (lit : string) : bool :=
  match message with
  | Some s => String.eqb s lit
  | None => false
  end.

(** [main()], from the parsed [args.message] on. *)
Definition main (message : option string) : io unit :=
  if truthy (arg_value message) && arg_is message "common-message" then
    common_message <- lift _build_common_message ;;
    print (Lit "FCM request body for message using common notification object:") ;;
    print (Dumps (Some 2%nat) common_message) ;;
    _send_fcm_message common_message
  else if truthy (arg_value message) && arg_is message "override-message" then
    override_message <- lift _build_override_message ;;
    print (Lit "FCM request body for override message:") ;;
    print (Dumps (Some 2%nat) override_message) ;;
    _send_fcm_message override_message
  else
    match message with
    | Some s =>
        if truthy (PyStr s) then
          print (Lit "Send custom message.") ;;
          message_params <- lift (json_loads E s) ;;
          common_message <- lift (custom_message_of_params message_params) ;;
          print (Lit "FCM request body for message using common notification object:") ;;
          print (Dumps (Some 2%nat) common_message) ;;
          _send_fcm_message common_message
        else
          print (Lit usage)
    | None => print (Lit usage)
    end.

End Script.

(* ================================================================== *)
(** ** The module-level code, and the script as a whole *)

(** What the script finds around it when the interpreter loads it:
    [__file__]; [os.path.dirname]; the text a file holds, or the
    exception [open] or reading raises; [json.loads]; oauth2client's
    exchange, given the key file's path and the scopes; the server. *)
Record Host : Type := MkHost {
  script_file : string;
  dirname : string -> string;
  read_text : string -> result string;
  host_json_loads : string -> result value;
  oauth_exchange : string -> list string -> result string;
  host_http_post : request -> result response
}.

(** [SERVICE_ACCOUNT_PATH] *)
Definition SERVICE_ACCOUNT_PATH (H : Host) : string :=
  dirname H (script_file H) ++ "/service-account.json".

(** [SCOPES] *)
Definition SCOPES : list string :=
  ["https://www.googleapis.com/auth/firebase.messaging"].

(** Lines 23-24: [json.load(service_account_file).get('project_id')]
    inside the [with open(...)] block. *)
Definition load_project_id (H : Host) : result value :=
  content <- read_text H (SERVICE_ACCOUNT_PATH H) ;;
  service_account <- host_json_loads H content ;;
  get service_account "project_id".

(** Lines 22-28.  ['v1/projects/' + PROJECT_ID] on line 26 needs a [str]
    on the right and raises [TypeError] for anything else; with a [str]
    the module-level names are those of [Env], [FCM_ENDPOINT] and
    [FCM_URL] above, and [_get_access_token] exchanges the key file at
    [SERVICE_ACCOUNT_PATH] for a token of [SCOPES]. *)
Definition module_level (H : Host) : result Env :=
  project_id <- load_project_id H ;;
  match project_id with
  | PyStr p =>
      Ok (MkEnv p
            (host_json_loads H)
            (oauth_exchange H (SERVICE_ACCOUNT_PATH H) SCOPES)
            (host_http_post H))
  | _ => Raise TypeError
  end.

(** Running the file as a script: the module-level code, then
    [if __name__ == '__main__': main()]. *)
Definition script (H : Host) (message : option string) : io unit :=
  E <- lift (module_level H) ;;
  main E message.

(* ================================================================== *)
(** ** Concrete environments for running the script *)

(** An environment in which the token exchange succeeds and the server
    answers every POST with [answer].  Its [json_loads] is CPython's on
    the three arguments the runs below use: the empty object, the empty
    array, and the word [foo], which is not JSON. *)
Definition env_answering (answer : result response) : Env := {|
  PROJECT_ID := "demo-project";
  json_loads := fun s =>
    if String.eqb s "{}" then Ok (PyDict [])
    else if String.eqb s "[]" then Ok (PyList [])
    else Raise JSONDecodeError;
  access_token := Ok "ya29.c0ffee";
  http_post := fun _ => answer
|}.

Definition example_env : Env :=
  env_answering (Ok (MkResponse 200 "{ }")).

(** The payload of the spec's all-fields example. *)
Definition all_fields_payload : value :=
  PyDict [
    ("message", PyDict [
      ("topic", PyStr "promo");
      ("notification", PyDict [
        ("title", PyStr "T");
        ("body", PyStr "B");
        ("click_action", PyStr "https://x");
        ("icon", PyStr "ic_x")
      ]);
      ("data", PyDict [("k", PyStr "v")]);
      ("delivery_receipt_requested", PyBool true)
    ])
  ].

(** The parameter bundle of the spec's all-fields example, as
    [json.loads] returns it. *)
Definition all_fields_params : value :=
  PyDict [
    ("title", PyStr "T");
    ("body", PyStr "B");
    ("topic", PyStr "promo");
    ("data", PyDict [("k", PyStr "v")]);
    ("link", PyStr "https://x");
    ("icon", PyStr "ic_x")
  ].

Definition android_override : value :=
  PyDict [
    ("notification", PyDict [
      ("click_action", PyStr "android.intent.action.MAIN")
    ])
  ].

Definition apns_override : value :=
  PyDict [
    ("payload", PyDict [("aps", PyDict [("badge", PyInt 1)])]);
    ("headers", PyDict [("apns-priority", PyStr "10")])
  ].

(** A parameter of the custom variant counts as left out when its key is
    missing from the JSON object, or is there with [null] or the empty
    string. *)
Definition omitted_or_empty (d : dict) (k : string) : Prop :=
  dict_lookup d k = None \/
  dict_lookup d k = Some PyNone \/
  dict_lookup d k = Some (PyStr "").

(** The line [_send_fcm_message] prints before the response body. *)
Definition status_line (resp : response) : string :=
  if Z.eqb (status_code resp) 200 then sent_line else failed_line.

(** An environment in which the token exchange fails. *)
Definition env_without_token : Env := {|
  PROJECT_ID := "demo-project";
  json_loads := fun s =>
    if String.eqb s "{}" then Ok (PyDict []) else Raise JSONDecodeError;
  access_token := Raise (LibraryError "HttpAccessTokenRefreshError");
  http_post := fun _ => Ok (MkResponse 200 "{ }")
|}.

(** The six keys [main] reads from the parameter bundle. *)
Definition param_keys : list string :=
  ["title"; "body"; "topic"; "data"; "link"; "icon"].

(** The double quote, for JSON text. *)
Definition dq : string := String (Ascii.ascii_of_nat 34) EmptyString.

(** The text of a key file that names the project [demo-project]. *)
Definition demo_key_text : string :=
  "{" ++ dq ++ "project_id" ++ dq ++ ": " ++ dq ++ "demo-project" ++ dq ++ "}".

(** A host whose script lives in [/srv/fcm], whose key file holds
    [key_file] (or cannot be opened) and whose server answers every POST
    with status 200.  [json.loads] is CPython's on the texts the runs
    below use. *)
Definition host_with_key_file (key_file : result string) : Host := {|
  script_file := "/srv/fcm/server.py";
  dirname := fun _ => "/srv/fcm";
  read_text := fun path =>
    if String.eqb path "/srv/fcm/service-account.json" then key_file
    else Raise (LibraryError "FileNotFoundError");
  host_json_loads := fun s =>
    if String.eqb s demo_key_text
    then Ok (PyDict [("project_id", PyStr "demo-project")])
    else if String.eqb s "{}" then Ok (PyDict [])
    else if String.eqb s "[]" then Ok (PyList [])
    else Raise JSONDecodeError;
  oauth_exchange := fun _ _ => Ok "ya29.c0ffee";
  host_http_post := fun _ => Ok (MkResponse 200 "{ }")
|}.

(* ================================================================== *)
(** ** The builders *)

Example build_override_runs :
  _build_override_message = Ok (PyDict [
    ("message", PyDict [
      ("topic", PyStr "news");
      ("notification", PyDict [
        ("title", PyStr "FCM Notification");
        ("body", PyStr "Notification from FCM")
      ]);
      ("android", android_override);
      ("apns", apns_override)
    ])
  ]).
Proof. reflexivity. Qed.

Lemma get_dict (d : dict) (k : string) :
  get (PyDict d) k =
  Ok (match dict_lookup d k with Some v => v | None => PyNone end).
Proof. unfold get. destruct (dict_lookup d k); reflexivity. Qed.

Lemma omitted_or_empty_falsy (d : dict) (k : string) :
  omitted_or_empty d k ->
  truthy (match dict_lookup d k with Some v => v | None => PyNone end) = false.
Proof. intros [H | [H | H]]; rewrite H; reflexivity. Qed.

(** The shape of what the custom builder returns, by the truth values of
    [link] and [icon]. *)
Lemma build_custom_shape (title body topic data link icon : value) :
  _build_common_custom_message title body topic data link icon =
  Ok (PyDict [
    ("message", PyDict [
      ("topic", topic);
      ("notification", PyDict (
        [("title", title); ("body", body)]
        ++ (if truthy link then [("click_action", link)] else [])
        ++ (if truthy icon then [("icon", icon)] else [])));
      ("data", data);
      ("delivery_receipt_requested", PyBool true)
    ])
  ]).
Proof.
  unfold _build_common_custom_message.
  destruct (truthy link), (truthy icon); reflexivity.
Qed.

Lemma custom_of_params_dict (d : dict) :
  custom_message_of_params (PyDict d) =
  _build_common_custom_message
    (match dict_lookup d "title" with Some v => v | None => PyNone end)
    (match dict_lookup d "body" with Some v => v | None => PyNone end)
    (match dict_lookup d "topic" with Some v => v | None => PyNone end)
    (match dict_lookup d "data" with Some v => v | None => PyNone end)
    (match dict_lookup d "link" with Some v => v | None => PyNone end)
    (match dict_lookup d "icon" with Some v => v | None => PyNone end).
Proof.
  unfold custom_message_of_params.
  rewrite !get_dict. reflexivity.
Qed.

(** C1: the custom builder called with title "T", body "B", topic
    "promo", data {"k": "v"}, link "https://x" and icon "ic_x" returns
    exactly the object of the spec, keys in the order written there (also
    when the six fields are taken from the parsed parameter bundle, as
    [main] does); the common and the override builders set no
    [delivery_receipt_requested] key at any depth. *)
Theorem C1_custom_all_fields :
  _build_common_custom_message
    (PyStr "T") (PyStr "B") (PyStr "promo") (PyDict [("k", PyStr "v")])
    (PyStr "https://x") (PyStr "ic_x")
  = Ok all_fields_payload
  /\ custom_message_of_params all_fields_params = Ok all_fields_payload
  /\ lookup_path all_fields_payload ["message"; "delivery_receipt_requested"]
     = Some (PyBool true)
  /\ (exists m, _build_common_message = Ok m
                /\ has_key "delivery_receipt_requested" m = false)
  /\ (exists m, _build_override_message = Ok m
                /\ has_key "delivery_receipt_requested" m = false).
Proof.
  repeat split; try reflexivity.
  - eexists; split; reflexivity.
  - eexists; split; reflexivity.
Qed.

(** C2: the override builder returns the common builder's envelope with
    exactly two keys added under [message], [android] and [apns], after
    the common ones: [android] is {notification: {click_action:
    "android.intent.action.MAIN"}}, [apns] is {payload: {aps: {badge: 1}},
    headers: {"apns-priority": "10"}}; every other key under [message]
    reads as in the common envelope, and the outer envelope has the same
    single key. *)
Theorem C2_override_is_common_plus_two :
  exists inner : dict,
    _build_common_message = Ok (PyDict [("message", PyDict inner)])
    /\ dict_lookup inner "android" = None
    /\ dict_lookup inner "apns" = None
    /\ _build_override_message =
       Ok (PyDict [("message",
                    PyDict (inner ++ [("android", android_override);
                                      ("apns", apns_override)]))])
    /\ lookup_path android_override ["notification"; "click_action"]
       = Some (PyStr "android.intent.action.MAIN")
    /\ lookup_path apns_override ["payload"; "aps"; "badge"] = Some (PyInt 1)
    /\ lookup_path apns_override ["headers"; "apns-priority"]
       = Some (PyStr "10")
    /\ (forall k, k <> "android" -> k <> "apns" ->
          dict_lookup (inner ++ [("android", android_override);
                                 ("apns", apns_override)]) k
          = dict_lookup inner k).
Proof.
  eexists. split; [reflexivity |].
  repeat split; try reflexivity.
  intros k Handroid Hapns. cbn [app dict_lookup].
  destruct (String.eqb "topic" k); [reflexivity |].
  destruct (String.eqb "notification" k); [reflexivity |].
  destruct (String.eqb_spec "android" k) as [Heq | _]; [congruence |].
  destruct (String.eqb_spec "apns" k) as [Heq | _]; [congruence |].
  reflexivity.
Qed.

(** C3: the common builder's envelope has [message.topic == "news"], and
    no key [android], [apns] or [data] in any object of the envelope. *)
Theorem C3_common_topic_news_no_overrides :
  exists m : value,
    _build_common_message = Ok m
    /\ lookup_path m ["message"; "topic"] = Some (PyStr "news")
    /\ has_key "android" m = false
    /\ has_key "apns" m = false
    /\ has_key "data" m = false.
Proof. eexists. repeat split; reflexivity. Qed.

(** C4: whatever the other fields are, when [link] is left out (missing
    from the parameters, null, the empty string, or any other false
    value) the payload has no key [notification.click_action] at all,
    a lookup finds nothing rather than a null; and the same for [icon]
    and [notification.icon].  Stated for the builder and for the
    parameter bundle [main] reads the six fields from. *)
Theorem C4_link_icon_left_out :
  (forall title body topic data link icon : value,
     exists payload : value,
       _build_common_custom_message title body topic data link icon
       = Ok payload
       /\ (truthy link = false ->
           lookup_path payload ["message"; "notification"; "click_action"]
           = None)
       /\ (truthy icon = false ->
           lookup_path payload ["message"; "notification"; "icon"] = None))
  /\
  (forall d : dict,
     exists payload : value,
       custom_message_of_params (PyDict d) = Ok payload
       /\ (omitted_or_empty d "link" ->
           lookup_path payload ["message"; "notification"; "click_action"]
           = None)
       /\ (omitted_or_empty d "icon" ->
           lookup_path payload ["message"; "notification"; "icon"] = None)).
Proof.
  assert (Hbuilder : forall title body topic data link icon : value,
     exists payload : value,
       _build_common_custom_message title body topic data link icon
       = Ok payload
       /\ (truthy link = false ->
           lookup_path payload ["message"; "notification"; "click_action"]
           = None)
       /\ (truthy icon = false ->
           lookup_path payload ["message"; "notification"; "icon"] = None)).
  { intros title body topic data link icon.
    eexists. split; [apply build_custom_shape |].
    split; intros Hfalse; rewrite Hfalse.
    - destruct (truthy icon); reflexivity.
    - destruct (truthy link); reflexivity. }
  split; [exact Hbuilder |].
  intros d. rewrite custom_of_params_dict.
  edestruct Hbuilder as (payload & Hbuild & Hlink & Hicon).
  exists payload. split; [exact Hbuild |].
  split; intros Hout.
  - apply Hlink. now apply omitted_or_empty_falsy.
  - apply Hicon. now apply omitted_or_empty_falsy.
Qed.

(** C9: each of the three builders, on every input, returns an object
    whose only key is [message], bound to an object that has the key
    [topic]. *)
Theorem C9_envelope_message_topic :
  (exists inner : dict,
     _build_common_message = Ok (PyDict [("message", PyDict inner)])
     /\ dict_contains inner "topic" = true)
  /\ (exists inner : dict,
        _build_override_message = Ok (PyDict [("message", PyDict inner)])
        /\ dict_contains inner "topic" = true)
  /\ (forall title body topic data link icon : value,
        exists inner : dict,
          _build_common_custom_message title body topic data link icon
          = Ok (PyDict [("message", PyDict inner)])
          /\ dict_contains inner "topic" = true).
Proof.
  split; [| split].
  - eexists. split; reflexivity.
  - eexists. split; reflexivity.
  - intros title body topic data link icon.
    eexists. split; [apply build_custom_shape | reflexivity].
Qed.

(* ================================================================== *)
(** ** The transport *)

Lemma posts_app (l1 l2 : list event) :
  posts (l1 ++ l2) = posts l1 ++ posts l2.
Proof.
  induction l1 as [| ev l1 IH]; [reflexivity |].
  destruct ev; cbn; rewrite IH; reflexivity.
Qed.

Lemma network_calls_app (l1 l2 : list event) :
  network_calls (l1 ++ l2) = (network_calls l1 + network_calls l2)%nat.
Proof.
  induction l1 as [| ev l1 IH]; [reflexivity |].
  destruct ev; cbn; rewrite IH; reflexivity.
Qed.

Lemma in_posts (l : list event) (r : request) :
  In (EvPost r) l -> In r (posts l).
Proof.
  induction l as [| ev l IH]; [intros [] |].
  intros [Hhead | Htail].
  - subst ev. left. reflexivity.
  - destruct ev; cbn; auto.
Qed.

(** What a call of [_send_fcm_message] does, by the answers of the two
    libraries. *)
Lemma send_fcm_message_run (E : Env) (fcm_message : value) :
  _send_fcm_message E fcm_message =
  match access_token E with
  | Raise e => MkIO [EvAccessToken] (Raise e)
  | Ok token =>
      let r := MkRequest (FCM_URL E) (Dumps None fcm_message)
                 [("Authorization", ("Bearer " ++ token)%string);
                  ("Content-Type", "application/json; UTF-8")] in
      match http_post E r with
      | Raise e => MkIO [EvAccessToken; EvPost r] (Raise e)
      | Ok resp =>
          MkIO [EvAccessToken; EvPost r;
                EvPrint (Lit (status_line resp));
                EvPrint (Lit (resp_text resp))] (Ok tt)
      end
  end.
Proof.
  unfold _send_fcm_message, _get_access_token, requests_post, status_line.
  cbn. unfold io_bind. cbn.
  destruct (access_token E) as [token | e]; cbn; [| reflexivity].
  destruct (http_post E _) as [resp | e]; cbn; [| reflexivity].
  destruct (Z.eqb (status_code resp) 200); reflexivity.
Qed.

(** With a token, a call of [_send_fcm_message] POSTs once. *)
Lemma send_fcm_message_posts (E : Env) (fcm_message : value) (token : string) :
  access_token E = Ok token ->
  posts (events (_send_fcm_message E fcm_message)) =
  [MkRequest (FCM_URL E) (Dumps None fcm_message)
     [("Authorization", ("Bearer " ++ token)%string);
      ("Content-Type", "application/json; UTF-8")]].
Proof.
  intros Htoken. rewrite send_fcm_message_run, Htoken. cbv zeta.
  destruct (http_post E _); reflexivity.
Qed.

(** C6: run on the payload of the all-fields example with the token
    [ya29.c0ffee], [_send_fcm_message] POSTs one request, to the endpoint
    URL, with [json.dumps] of the payload as body and the two headers
    [Authorization: Bearer ya29.c0ffee] and [Content-Type]; the
    [Content-Type] it sends is the literal of line 55,
    [application/json; UTF-8], not the [application/json; charset=UTF-8]
    of the claim: the parameter name [charset=] is missing. *)
Theorem C6_content_type_without_charset :
  exists r : request,
    posts (events (_send_fcm_message example_env all_fields_payload)) = [r]
    /\ r = MkRequest
             "https://fcm.googleapis.com/v1/projects/demo-project/messages:send"
             (Dumps None all_fields_payload)
             [("Authorization", "Bearer ya29.c0ffee");
              ("Content-Type", "application/json; UTF-8")]
    /\ header r "Authorization" = Some "Bearer ya29.c0ffee"
    /\ header r "Content-Type" = Some "application/json; UTF-8"
    /\ header r "Content-Type" <> Some "application/json; charset=UTF-8".
Proof.
  eexists. split; [reflexivity |].
  repeat split. discriminate.
Qed.

(* ================================================================== *)
(** ** [main] *)

Lemma truthy_str (s : string) : truthy (PyStr s) = negb (String.eqb s "").
Proof. destruct s; reflexivity. Qed.

(** Without the flag, or with an empty value, [main] only prints the
    usage text. *)
Lemma main_no_value (E : Env) (message : option string) :
  truthy (arg_value message) = false ->
  main E message = MkIO [EvPrint (Lit usage)] (Ok tt).
Proof.
  intros Hfalse. unfold main. rewrite Hfalse. cbn [andb].
  destruct message as [s |]; [| reflexivity].
  cbn [arg_value] in Hfalse. rewrite Hfalse. reflexivity.
Qed.

(** Any other value than the two fixed names takes the custom branch. *)
Lemma main_custom (E : Env) (s : string) :
  s <> "" -> s <> "common-message" -> s <> "override-message" ->
  main E (Some s) =
  (print (Lit "Send custom message.") ;;
   message_params <- lift (json_loads E s) ;;
   common_message <- lift (custom_message_of_params message_params) ;;
   print (Lit "FCM request body for message using common notification object:") ;;
   print (Dumps (Some 2%nat) common_message) ;;
   _send_fcm_message E common_message).
Proof.
  intros Hne Hcommon Hoverride. unfold main. cbn [arg_value arg_is].
  destruct (String.eqb_spec s "common-message"); [contradiction |].
  destruct (String.eqb_spec s "override-message"); [contradiction |].
  rewrite !andb_false_r.
  rewrite truthy_str.
  destruct (String.eqb_spec s ""); [contradiction |].
  reflexivity.
Qed.

(** The custom branch when the argument parses to a JSON object. *)
Lemma main_custom_object (E : Env) (s : string) (d : dict) (payload : value) :
  s <> "" -> s <> "common-message" -> s <> "override-message" ->
  json_loads E s = Ok (PyDict d) ->
  custom_message_of_params (PyDict d) = Ok payload ->
  main E (Some s) =
  MkIO ([EvPrint (Lit "Send custom message.");
         EvPrint (Lit "FCM request body for message using common notification object:");
         EvPrint (Dumps (Some 2%nat) payload)]
        ++ events (_send_fcm_message E payload))
       (outcome (_send_fcm_message E payload)).
Proof.
  intros Hne Hcommon Hoverride Hloads Hbuild.
  rewrite main_custom by assumption.
  rewrite Hloads.
  cbn -[custom_message_of_params _send_fcm_message]. unfold io_bind.
  cbn -[custom_message_of_params _send_fcm_message].
  rewrite Hbuild.
  cbn -[_send_fcm_message].
  destruct (outcome (_send_fcm_message E payload)); reflexivity.
Qed.

(** The custom branch when the argument does not parse to a JSON object:
    the exception of [json.loads], or the [AttributeError] of [.get] on
    a value that is not a dict. *)
Lemma main_custom_no_object (E : Env) (s : string) :
  s <> "" -> s <> "common-message" -> s <> "override-message" ->
  (forall d : dict, json_loads E s <> Ok (PyDict d)) ->
  exists e : exn,
    main E (Some s) = MkIO [EvPrint (Lit "Send custom message.")] (Raise e).
Proof.
  intros Hne Hcommon Hoverride Hloads.
  rewrite main_custom by assumption.
  destruct (json_loads E s) as [v | e] eqn:Hv.
  - destruct v; try (exists AttributeError; reflexivity).
    exfalso. eapply Hloads. reflexivity.
  - exists e. reflexivity.
Qed.

Lemma main_common (E : Env) :
  exists payload : value,
    _build_common_message = Ok payload /\
    main E (Some "common-message") =
    MkIO ([EvPrint (Lit "FCM request body for message using common notification object:");
           EvPrint (Dumps (Some 2%nat) payload)]
          ++ events (_send_fcm_message E payload))
         (outcome (_send_fcm_message E payload)).
Proof.
  eexists. split; [reflexivity |].
  unfold main. cbn -[_send_fcm_message]. unfold io_bind.
  cbn -[_send_fcm_message].
  destruct (outcome (_send_fcm_message E _)); reflexivity.
Qed.

Lemma main_override (E : Env) :
  exists payload : value,
    _build_override_message = Ok payload /\
    main E (Some "override-message") =
    MkIO ([EvPrint (Lit "FCM request body for override message:");
           EvPrint (Dumps (Some 2%nat) payload)]
          ++ events (_send_fcm_message E payload))
         (outcome (_send_fcm_message E payload)).
Proof.
  eexists. split; [reflexivity |].
  unfold main. cbn -[_send_fcm_message]. unfold io_bind.
  cbn -[_send_fcm_message].
  destruct (outcome (_send_fcm_message E _)); reflexivity.
Qed.

Lemma custom_of_params_total (d : dict) :
  exists payload : value, custom_message_of_params (PyDict d) = Ok payload.
Proof.
  rewrite custom_of_params_dict, build_custom_shape. eexists. reflexivity.
Qed.

(** Every run of [main] either stops before any call leaves the process,
    or prints some lines and ends with one call of [_send_fcm_message]. *)
Lemma main_cases (E : Env) (message : option string) :
  (exists (pre : list event) (o : result unit),
     main E message = MkIO pre o
     /\ posts pre = [] /\ network_calls pre = 0%nat)
  \/
  (exists (pre : list event) (payload : value),
     main E message =
     MkIO (pre ++ events (_send_fcm_message E payload))
          (outcome (_send_fcm_message E payload))
     /\ posts pre = [] /\ network_calls pre = 0%nat).
Proof.
  destruct message as [s |].
  2:{ left. do 2 eexists. split; [apply main_no_value |]; split; reflexivity. }
  destruct (String.eqb_spec s "") as [-> | Hne].
  { left. do 2 eexists. split; [apply main_no_value |]; split; reflexivity. }
  destruct (String.eqb_spec s "common-message") as [-> | Hcommon].
  { right. destruct (main_common E) as (payload & _ & Hrun).
    do 2 eexists. split; [exact Hrun |]. split; reflexivity. }
  destruct (String.eqb_spec s "override-message") as [-> | Hoverride].
  { right. destruct (main_override E) as (payload & _ & Hrun).
    do 2 eexists. split; [exact Hrun |]. split; reflexivity. }
  destruct (json_loads E s) as [v | e] eqn:Hloads.
  - assert (Hdict : (exists d, v = PyDict d) \/ (forall d, v <> PyDict d)).
    { destruct v; try (right; intros d; discriminate). left. eexists. reflexivity. }
    destruct Hdict as [[d ->] | Hnot].
    + right. destruct (custom_of_params_total d) as [payload Hbuild].
      do 2 eexists.
      split; [apply (main_custom_object E s d payload); assumption |].
      split; reflexivity.
    + left. destruct (main_custom_no_object E s) as [e Hrun]; try assumption.
      { intros d Heq. rewrite Hloads in Heq. injection Heq. apply Hnot. }
      do 2 eexists. split; [exact Hrun |]. split; reflexivity.
  - left. destruct (main_custom_no_object E s) as [e' Hrun]; try assumption.
    { intros d Heq. rewrite Hloads in Heq. discriminate. }
    do 2 eexists. split; [exact Hrun |]. split; reflexivity.
Qed.

Lemma main_custom_parse_error (E : Env) (s : string) (e : exn) :
  s <> "" -> s <> "common-message" -> s <> "override-message" ->
  json_loads E s = Raise e ->
  main E (Some s) = MkIO [EvPrint (Lit "Send custom message.")] (Raise e).
Proof.
  intros Hne Hcommon Hoverride Hloads.
  rewrite main_custom by assumption. rewrite Hloads. reflexivity.
Qed.

Lemma main_custom_not_dict (E : Env) (s : string) (v : value) :
  s <> "" -> s <> "common-message" -> s <> "override-message" ->
  json_loads E s = Ok v ->
  (forall d : dict, v <> PyDict d) ->
  main E (Some s)
  = MkIO [EvPrint (Lit "Send custom message.")] (Raise AttributeError).
Proof.
  intros Hne Hcommon Hoverride Hloads Hnot.
  rewrite main_custom by assumption. rewrite Hloads.
  destruct v; try reflexivity.
  exfalso. eapply Hnot. reflexivity.
Qed.




(** C8: when the value of [--message] is a custom one (not empty, not
    one of the two fixed names) and [json.loads] raises on it, [main]
    prints [Send custom message.] and the exception of the parser
    escapes: no token is requested, nothing is POSTed, and the
    interpreter exits with status 1. *)
Theorem C8_malformed_json_is_fatal
  (E : Env) (s : string) (e : exn)
  (Hne : s <> "")
  (Hcommon : s <> "common-message")
  (Hoverride : s <> "override-message")
  (Hloads : json_loads E s = Raise e) :
  main E (Some s) = MkIO [EvPrint (Lit "Send custom message.")] (Raise e)
  /\ posts (events (main E (Some s))) = []
  /\ network_calls (events (main E (Some s))) = 0%nat
  /\ exit_status (main E (Some s)) = 1%Z.
Proof.
  assert (Hrun : main E (Some s)
                 = MkIO [EvPrint (Lit "Send custom message.")] (Raise e)).
  { rewrite main_custom by assumption. rewrite Hloads. reflexivity. }
  rewrite Hrun. repeat split; reflexivity.
Qed.

Lemma C8_malformed_json_is_fatal_witness :
  json_loads example_env "foo" = Raise JSONDecodeError
  /\ main example_env (Some "foo")
     = MkIO [EvPrint (Lit "Send custom message.")] (Raise JSONDecodeError)
  /\ posts (events (main example_env (Some "foo"))) = []
  /\ network_calls (events (main example_env (Some "foo"))) = 0%nat
  /\ exit_status (main example_env (Some "foo")) = 1%Z.
Proof.
  split; [reflexivity |].
  apply (C8_malformed_json_is_fatal example_env "foo" JSONDecodeError);
    first [discriminate | reflexivity].
Defined.

(** C10: when the value of [--message] parses to a JSON object, a
    parameter among [title], [body], [topic] and [data] whose key is
    missing there is still a key of the payload, bound to null, while a
    missing [link] or [icon] leaves no key; nothing is checked or
    raised on the way: after the three lines printed, [main] calls
    [_send_fcm_message] with that payload, which asks for a token and,
    given one, POSTs the payload. *)
Theorem C10_missing_fields_sent_as_null
  (E : Env) (s : string) (d : dict)
  (Hne : s <> "")
  (Hcommon : s <> "common-message")
  (Hoverride : s <> "override-message")
  (Hloads : json_loads E s = Ok (PyDict d)) :
  exists payload : value,
    custom_message_of_params (PyDict d) = Ok payload
    /\ (dict_lookup d "title" = None ->
        lookup_path payload ["message"; "notification"; "title"] = Some PyNone)
    /\ (dict_lookup d "body" = None ->
        lookup_path payload ["message"; "notification"; "body"] = Some PyNone)
    /\ (dict_lookup d "topic" = None ->
        lookup_path payload ["message"; "topic"] = Some PyNone)
    /\ (dict_lookup d "data" = None ->
        lookup_path payload ["message"; "data"] = Some PyNone)
    /\ (dict_lookup d "link" = None ->
        lookup_path payload ["message"; "notification"; "click_action"] = None)
    /\ (dict_lookup d "icon" = None ->
        lookup_path payload ["message"; "notification"; "icon"] = None)
    /\ main E (Some s) =
       MkIO ([EvPrint (Lit "Send custom message.");
              EvPrint (Lit "FCM request body for message using common notification object:");
              EvPrint (Dumps (Some 2%nat) payload)]
             ++ events (_send_fcm_message E payload))
            (outcome (_send_fcm_message E payload))
    /\ In EvAccessToken (events (main E (Some s)))
    /\ (forall token : string,
          access_token E = Ok token ->
          exists r : request,
            posts (events (main E (Some s))) = [r]
            /\ data r = Dumps None payload).
Proof.
  eexists. split.
  { rewrite custom_of_params_dict. apply build_custom_shape. }
  assert (Hrun := main_custom_object E s d _ Hne Hcommon Hoverride Hloads
                    (eq_trans (custom_of_params_dict d)
                              (build_custom_shape _ _ _ _ _ _))).
  repeat split.
  - intros Htitle. rewrite Htitle. reflexivity.
  - intros Hbody. rewrite Hbody. reflexivity.
  - intros Htopic. rewrite Htopic. reflexivity.
  - intros Hdata. rewrite Hdata. reflexivity.
  - intros Hlink. rewrite Hlink.
    destruct (truthy match dict_lookup d "icon" with
                     | Some v => v
                     | None => PyNone
                     end); reflexivity.
  - intros Hicon. rewrite Hicon.
    destruct (truthy match dict_lookup d "link" with
                     | Some v => v
                     | None => PyNone
                     end); reflexivity.
  - exact Hrun.
  - rewrite Hrun. cbn [events]. apply in_or_app. right.
    rewrite send_fcm_message_run.
    destruct (access_token E); [cbv zeta; destruct (http_post E _) |];
      left; reflexivity.
  - intros token Htoken. rewrite Hrun. cbn [events].
    rewrite posts_app. cbn [posts app].
    rewrite (send_fcm_message_posts E _ token Htoken).
    eexists. split; reflexivity.
Qed.

Lemma C10_missing_fields_sent_as_null_witness :
  json_loads example_env "{}" = Ok (PyDict [])
  /\ exists payload : value,
       custom_message_of_params (PyDict []) = Ok payload
       /\ lookup_path payload ["message"; "topic"] = Some PyNone
       /\ lookup_path payload ["message"; "data"] = Some PyNone
       /\ lookup_path payload ["message"; "notification"; "title"] = Some PyNone
       /\ lookup_path payload ["message"; "notification"; "click_action"] = None
       /\ In EvAccessToken (events (main example_env (Some "{}"))).
Proof.
  split; [reflexivity |].
  destruct (C10_missing_fields_sent_as_null example_env "{}" [])
    as (payload & Hbuild & Htitle & _ & Htopic & Hdata & Hlink & _ & _ & Hsend & _);
    try discriminate; try reflexivity.
  exists payload. repeat split; auto.
Defined.

(** What a run of [_send_fcm_message] looks like once it is known to
    have POSTed [req] and the server answered [resp]. *)
Lemma send_fcm_message_answered
  (E : Env) (fcm_message : value) (req : request) (resp : response) :
  In (EvPost req) (events (_send_fcm_message E fcm_message)) ->
  http_post E req = Ok resp ->
  _send_fcm_message E fcm_message =
  MkIO [EvAccessToken; EvPost req;
        EvPrint (Lit (status_line resp));
        EvPrint (Lit (resp_text resp))] (Ok tt).
Proof.
  rewrite send_fcm_message_run.
  destruct (access_token E) as [token | e]; cbv zeta.
  - destruct (http_post E _) as [resp' | e] eqn:Hpost; cbn [events];
      intros Hin Hresp.
    + destruct Hin as [Hin | [Hin | [Hin | [Hin | []]]]];
        try discriminate Hin.
      congruence.
    + destruct Hin as [Hin | [Hin | []]]; try discriminate Hin.
      congruence.
  - cbn [events]. intros [Hin | []]. discriminate Hin.
Qed.

(** C7: whenever a run of the program POSTs a request and the server
    answers it, the run ends with two printed lines, the success line
    when the status is 200 and the failure line for any other status,
    followed by the response body as received; the request is the only
    one of the run (nothing is sent before it, nothing after), [main]
    returns and the interpreter exits with status 0. *)
Theorem C7_response_printed_exit_zero
  (E : Env) (message : option string) (req : request) (resp : response)
  (Hsent : In (EvPost req) (events (main E message)))
  (Hanswer : http_post E req = Ok resp) :
  exists pre : list event,
    events (main E message) =
      pre ++ [EvPost req;
              EvPrint (Lit (if Z.eqb (status_code resp) 200
                            then "Message sent to Firebase for delivery, response:"
                            else "Unable to send message to Firebase"));
              EvPrint (Lit (resp_text resp))]
    /\ posts pre = []
    /\ posts (events (main E message)) = [req]
    /\ outcome (main E message) = Ok tt
    /\ exit_status (main E message) = 0%Z.
Proof.
  destruct (main_cases E message)
    as [(pre & o & Hrun & Hposts & _) | (pre & payload & Hrun & Hposts & _)].
  - exfalso. rewrite Hrun in Hsent. cbn [events] in Hsent.
    apply in_posts in Hsent. rewrite Hposts in Hsent. exact Hsent.
  - assert (Hin : In (EvPost req) (events (_send_fcm_message E payload))).
    { rewrite Hrun in Hsent. cbn [events] in Hsent.
      apply in_app_or in Hsent. destruct Hsent as [Hpre | Hsend]; [| exact Hsend].
      exfalso. apply in_posts in Hpre. rewrite Hposts in Hpre. exact Hpre. }
    rewrite Hrun, (send_fcm_message_answered E payload req resp Hin Hanswer).
    unfold exit_status. cbn [events outcome].
    exists (pre ++ [EvAccessToken]).
    rewrite <- app_assoc. split; [reflexivity |].
    rewrite !posts_app, Hposts. repeat split; reflexivity.
Qed.

Lemma C7_response_printed_exit_zero_witness :
  (let E := env_answering (Ok (MkResponse 403 "PERMISSION_DENIED")) in
   exists pre : list event,
     events (main E (Some "common-message")) =
       pre ++ [EvPost
                 (MkRequest
                    "https://fcm.googleapis.com/v1/projects/demo-project/messages:send"
                    (Dumps None
                       (PyDict [("message", PyDict [
                          ("topic", PyStr "news");
                          ("notification", PyDict [
                             ("title", PyStr "FCM Notification");
                             ("body", PyStr "Notification from FCM")])])]))
                    [("Authorization", "Bearer ya29.c0ffee");
                     ("Content-Type", "application/json; UTF-8")]);
               EvPrint (Lit "Unable to send message to Firebase");
               EvPrint (Lit "PERMISSION_DENIED")]
     /\ exit_status (main E (Some "common-message")) = 0%Z).
Proof.
  cbv zeta.
  edestruct (C7_response_printed_exit_zero
               (env_answering (Ok (MkResponse 403 "PERMISSION_DENIED")))
               (Some "common-message"))
    as (pre & Hevents & _ & _ & _ & Hexit).
  - cbn. right. right. right. left. reflexivity.
  - reflexivity.
  - exists pre. split; [exact Hevents | exact Hexit].
Defined.

(* ================================================================== *)
(** ** More on the custom builder *)

(** X1: the custom builder stores its first four arguments as they are,
    whatever their type, under [message.topic], [message.data],
    [message.notification.title] and [message.notification.body], sets
    [message.delivery_receipt_requested] to true, and stores [link] and
    [icon] under [notification.click_action] and [notification.icon]
    exactly when they are true values. *)
Theorem custom_builder_fields (title body topic data link icon : value) :
  exists payload : value,
    _build_common_custom_message title body topic data link icon = Ok payload
    /\ lookup_path payload ["message"; "topic"] = Some topic
    /\ lookup_path payload ["message"; "data"] = Some data
    /\ lookup_path payload ["message"; "notification"; "title"] = Some title
    /\ lookup_path payload ["message"; "notification"; "body"] = Some body
    /\ lookup_path payload ["message"; "delivery_receipt_requested"]
       = Some (PyBool true)
    /\ lookup_path payload ["message"; "notification"; "click_action"]
       = (if truthy link then Some link else None)
    /\ lookup_path payload ["message"; "notification"; "icon"]
       = (if truthy icon then Some icon else None).
Proof.
  eexists. split; [apply build_custom_shape |].
  repeat split; destruct (truthy link), (truthy icon); reflexivity.
Qed.

(** X2: the keys of the custom payload, in the order they are written
    out: [message] alone at the top; [topic], [notification], [data],
    [delivery_receipt_requested] under it, never [android] or [apns];
    [title], [body], then [click_action] and [icon] when stored, under
    [notification]. *)
Theorem custom_builder_keys (title body topic data link icon : value) :
  exists inner notification : dict,
    _build_common_custom_message title body topic data link icon
    = Ok (PyDict [("message", PyDict inner)])
    /\ dict_keys inner
       = ["topic"; "notification"; "data"; "delivery_receipt_requested"]
    /\ dict_lookup inner "notification" = Some (PyDict notification)
    /\ dict_keys notification
       = ["title"; "body"]
         ++ (if truthy link then ["click_action"] else [])
         ++ (if truthy icon then ["icon"] else []).
Proof.
  do 2 eexists. split; [apply build_custom_shape |].
  split; [reflexivity |]. split; [reflexivity |].
  destruct (truthy link), (truthy icon); reflexivity.
Qed.

(** X3: the payload built from the parameter bundle depends on what
    [.get] answers for the six keys only: other keys of the JSON object,
    the order of its keys, and whether a parameter is missing or null
    make no difference. *)
Theorem custom_params_only_six_keys (d d' : dict)
  (Hsame : forall k : string,
             In k param_keys -> get (PyDict d) k = get (PyDict d') k) :
  custom_message_of_params (PyDict d) = custom_message_of_params (PyDict d').
Proof.
  unfold custom_message_of_params.
  rewrite (Hsame "title"), (Hsame "body"), (Hsame "topic"),
    (Hsame "data"), (Hsame "link"), (Hsame "icon");
    [reflexivity | unfold param_keys; cbn [In]; tauto ..].
Qed.

Lemma custom_params_only_six_keys_witness :
  custom_message_of_params
    (PyDict [("priority", PyStr "high"); ("topic", PyStr "promo");
             ("link", PyNone)])
  = custom_message_of_params (PyDict [("topic", PyStr "promo")]).
Proof.
  apply custom_params_only_six_keys.
  intros k [<- | [<- | [<- | [<- | [<- | [<- | []]]]]]]; reflexivity.
Defined.

(* ================================================================== *)
(** ** More on [main] and the transport *)

Lemma not_dict_dec (v : value) :
  (exists d : dict, v = PyDict d) \/ (forall d : dict, v <> PyDict d).
Proof.
  destruct v; try (right; intros d'; discriminate).
  left. eexists. reflexivity.
Qed.

(** The runs of [main], with what stops a run that sends nothing and
    what is printed last before a send. *)
Lemma main_run (E : Env) (message : option string) :
  (main E message = MkIO [EvPrint (Lit usage)] (Ok tt))
  \/
  (exists (s : string) (e : exn),
     message = Some s
     /\ s <> "" /\ s <> "common-message" /\ s <> "override-message"
     /\ main E message
        = MkIO [EvPrint (Lit "Send custom message.")] (Raise e)
     /\ (json_loads E s = Raise e
         \/ (e = AttributeError
             /\ exists v : value,
                  json_loads E s = Ok v /\ forall d : dict, v <> PyDict d)))
  \/
  (exists (pre : list event) (payload : value),
     main E message =
     MkIO ((pre ++ [EvPrint (Dumps (Some 2%nat) payload)])
           ++ events (_send_fcm_message E payload))
          (outcome (_send_fcm_message E payload))
     /\ posts pre = [] /\ network_calls pre = 0%nat).
Proof.
  destruct message as [s |].
  2:{ left. apply main_no_value. reflexivity. }
  destruct (String.eqb_spec s "") as [-> | Hne].
  { left. apply main_no_value. reflexivity. }
  destruct (String.eqb_spec s "common-message") as [-> | Hcommon].
  { right. right. destruct (main_common E) as (payload & _ & Hrun).
    exists [EvPrint (Lit "FCM request body for message using common notification object:")], payload.
    split; [exact Hrun |]. split; reflexivity. }
  destruct (String.eqb_spec s "override-message") as [-> | Hoverride].
  { right. right. destruct (main_override E) as (payload & _ & Hrun).
    exists [EvPrint (Lit "FCM request body for override message:")], payload.
    split; [exact Hrun |]. split; reflexivity. }
  destruct (json_loads E s) as [v | e] eqn:Hloads.
  - destruct (not_dict_dec v) as [[d ->] | Hnot].
    + right. right. destruct (custom_of_params_total d) as [payload Hbuild].
      exists [EvPrint (Lit "Send custom message.");
              EvPrint (Lit "FCM request body for message using common notification object:")],
             payload.
      split; [apply (main_custom_object E s d payload); assumption |].
      split; reflexivity.
    + right. left. exists s, AttributeError.
      repeat (split; [assumption || reflexivity |]).
      split; [apply (main_custom_not_dict E s v); assumption |].
      right. split; [reflexivity |]. exists v. split; [exact Hloads | exact Hnot].
  - right. left. exists s, e.
    repeat (split; [assumption || reflexivity |]).
    split; [apply main_custom_parse_error; assumption |].
    left. exact Hloads.
Qed.

Lemma network_calls_send (E : Env) (payload : value) :
  (network_calls (events (_send_fcm_message E payload)) <= 2)%nat.
Proof.
  rewrite send_fcm_message_run.
  destruct (access_token E); cbv zeta; [destruct (http_post E _) |];
    cbn; lia.
Qed.

(** X4: a [--message] value that is JSON but not a JSON object (an
    array, a string, a number, [true], [null]) is not rejected by the
    parser: [main] prints [Send custom message.] and the
    [AttributeError] of [message_params.get] escapes; no token is
    requested, nothing is POSTed, the exit status is 1. *)
Theorem custom_non_object_attribute_error
  (E : Env) (s : string) (v : value)
  (Hne : s <> "")
  (Hcommon : s <> "common-message")
  (Hoverride : s <> "override-message")
  (Hloads : json_loads E s = Ok v)
  (Hnot : forall d : dict, v <> PyDict d) :
  main E (Some s)
  = MkIO [EvPrint (Lit "Send custom message.")] (Raise AttributeError)
  /\ network_calls (events (main E (Some s))) = 0%nat
  /\ exit_status (main E (Some s)) = 1%Z.
Proof.
  rewrite (main_custom_not_dict E s v Hne Hcommon Hoverride Hloads Hnot).
  repeat split; reflexivity.
Qed.

Lemma custom_non_object_attribute_error_witness :
  json_loads example_env "[]" = Ok (PyList [])
  /\ main example_env (Some "[]")
     = MkIO [EvPrint (Lit "Send custom message.")] (Raise AttributeError)
  /\ network_calls (events (main example_env (Some "[]"))) = 0%nat
  /\ exit_status (main example_env (Some "[]")) = 1%Z.
Proof.
  split; [reflexivity |].
  apply (custom_non_object_attribute_error example_env "[]" (PyList []));
    first [discriminate | reflexivity].
Defined.

(** A call of [_send_fcm_message] that POSTs had a token, POSTs right
    after asking for it, and makes no other call. *)
Lemma send_fcm_message_posted
  (E : Env) (fcm_message : value) (req : request) :
  In (EvPost req) (events (_send_fcm_message E fcm_message)) ->
  exists (token : string) (rest : list event),
    access_token E = Ok token
    /\ req = MkRequest (FCM_URL E) (Dumps None fcm_message)
               [("Authorization", ("Bearer " ++ token)%string);
                ("Content-Type", "application/json; UTF-8")]
    /\ events (_send_fcm_message E fcm_message)
       = [EvAccessToken; EvPost req] ++ rest
    /\ posts rest = [] /\ network_calls rest = 0%nat.
Proof.
  rewrite send_fcm_message_run.
  destruct (access_token E) as [token | e]; cbv zeta.
  - intros Hin. exists token.
    destruct (http_post E _) as [resp | e]; cbn [events] in *.
    + destruct Hin as [Hin | [Hin | [Hin | [Hin | []]]]];
        try discriminate Hin.
      injection Hin as <-. eexists. repeat split; reflexivity.
    + destruct Hin as [Hin | [Hin | []]]; try discriminate Hin.
      injection Hin as <-. exists []. repeat split; reflexivity.
  - cbn [events]. intros [Hin | []]. discriminate Hin.
Qed.

Lemma send_fcm_message_refused
  (E : Env) (fcm_message : value) (req : request) (e : exn) :
  In (EvPost req) (events (_send_fcm_message E fcm_message)) ->
  http_post E req = Raise e ->
  _send_fcm_message E fcm_message
  = MkIO [EvAccessToken; EvPost req] (Raise e).
Proof.
  rewrite send_fcm_message_run.
  destruct (access_token E) as [token | e']; cbv zeta.
  - destruct (http_post E _) as [resp | e'] eqn:Hpost; cbn [events];
      intros Hin Hraise.
    + destruct Hin as [Hin | [Hin | [Hin | [Hin | []]]]];
        try discriminate Hin.
      congruence.
    + destruct Hin as [Hin | [Hin | []]]; try discriminate Hin.
      congruence.
  - cbn [events]. intros [Hin | []]. discriminate Hin.
Qed.

Lemma in_post_split (pre send : list event) (req : request) :
  posts pre = [] -> In (EvPost req) (pre ++ send) -> In (EvPost req) send.
Proof.
  intros Hposts Hin. apply in_app_or in Hin.
  destruct Hin as [Hpre | Hsend]; [| exact Hsend].
  exfalso. apply in_posts in Hpre. rewrite Hposts in Hpre. exact Hpre.
Qed.

(** X5: when the token exchange fails, the exception escapes from the
    run that asked for the token, nothing is POSTed, and the failed
    exchange is the last event of the run and its only network call. *)
Theorem token_failure_stops_before_post
  (E : Env) (message : option string) (e : exn)
  (Htoken : access_token E = Raise e) :
  posts (events (main E message)) = []
  /\ (In EvAccessToken (events (main E message)) ->
      outcome (main E message) = Raise e
      /\ exit_status (main E message) = 1%Z
      /\ exists pre : list event,
           events (main E message) = pre ++ [EvAccessToken]
           /\ network_calls pre = 0%nat).
Proof.
  destruct (main_run E message)
    as [Hrun | [(s & e' & _ & _ & _ & _ & Hrun & _)
               | (pre & payload & Hrun & Hposts & Hcalls)]];
    rewrite Hrun; unfold exit_status; cbn [events outcome].
  - split; [reflexivity |]. intros [Hin | []]. discriminate Hin.
  - split; [reflexivity |]. intros [Hin | []]. discriminate Hin.
  - rewrite send_fcm_message_run, Htoken. cbn [events outcome].
    split.
    + rewrite !posts_app, Hposts. reflexivity.
    + intros _. split; [reflexivity |]. split; [reflexivity |].
      eexists. split; [reflexivity |].
      rewrite network_calls_app, Hcalls. reflexivity.
Qed.

Lemma token_failure_stops_before_post_witness :
  access_token env_without_token
  = Raise (LibraryError "HttpAccessTokenRefreshError")
  /\ posts (events (main env_without_token (Some "override-message"))) = []
  /\ outcome (main env_without_token (Some "override-message"))
     = Raise (LibraryError "HttpAccessTokenRefreshError").
Proof.
  split; [reflexivity |].
  destruct (token_failure_stops_before_post env_without_token
              (Some "override-message")
              (LibraryError "HttpAccessTokenRefreshError") eq_refl)
    as [Hposts Hasked].
  split; [exact Hposts |].
  apply Hasked. cbn. right. right. left. reflexivity.
Defined.

(** The run of [main] around a POST: the lines printed before the
    token is asked for are the headings of the branch taken and the
    indented dump of the payload. *)
Lemma main_posting_run
  (E : Env) (message : option string) (req : request) :
  In (EvPost req) (events (main E message)) ->
  exists (pre : list event) (payload : value),
    main E message =
    MkIO ((pre ++ [EvPrint (Dumps (Some 2%nat) payload)])
          ++ events (_send_fcm_message E payload))
         (outcome (_send_fcm_message E payload))
    /\ In (EvPost req) (events (_send_fcm_message E payload))
    /\ (pre = [EvPrint (Lit "FCM request body for message using common notification object:")]
        \/ pre = [EvPrint (Lit "FCM request body for override message:")]
        \/ pre = [EvPrint (Lit "Send custom message.");
                  EvPrint (Lit "FCM request body for message using common notification object:")]).
Proof.
  intros Hsent.
  assert (Hsplit : forall (pre : list event) (payload : value),
            main E message =
            MkIO ((pre ++ [EvPrint (Dumps (Some 2%nat) payload)])
                  ++ events (_send_fcm_message E payload))
                 (outcome (_send_fcm_message E payload)) ->
            posts pre = [] ->
            In (EvPost req) (events (_send_fcm_message E payload))).
  { intros pre payload Hrun Hposts. rewrite Hrun in Hsent.
    cbn [events] in Hsent.
    apply (in_post_split (pre ++ [EvPrint (Dumps (Some 2%nat) payload)]));
      [rewrite posts_app, Hposts; reflexivity | exact Hsent]. }
  assert (Hnone : forall o : result unit,
            main E message = MkIO [EvPrint (Lit usage)] o -> False).
  { intros o Hrun. rewrite Hrun in Hsent. destruct Hsent as [Hin | []].
    discriminate Hin. }
  assert (Hstop : forall o : result unit,
            main E message = MkIO [EvPrint (Lit "Send custom message.")] o ->
            False).
  { intros o Hrun. rewrite Hrun in Hsent. destruct Hsent as [Hin | []].
    discriminate Hin. }
  destruct message as [s |].
  2:{ exfalso. apply (Hnone (Ok tt)). apply main_no_value. reflexivity. }
  destruct (String.eqb_spec s "") as [-> | Hne].
  { exfalso. apply (Hnone (Ok tt)). apply main_no_value. reflexivity. }
  destruct (String.eqb_spec s "common-message") as [-> | Hcommon].
  { destruct (main_common E) as (payload & _ & Hrun).
    exists [EvPrint (Lit "FCM request body for message using common notification object:")],
           payload.
    split; [exact Hrun |].
    split; [apply (Hsplit
             [EvPrint (Lit "FCM request body for message using common notification object:")]
             payload Hrun); reflexivity |].
    left. reflexivity. }
  destruct (String.eqb_spec s "override-message") as [-> | Hoverride].
  { destruct (main_override E) as (payload & _ & Hrun).
    exists [EvPrint (Lit "FCM request body for override message:")], payload.
    split; [exact Hrun |].
    split; [apply (Hsplit
             [EvPrint (Lit "FCM request body for override message:")]
             payload Hrun); reflexivity |].
    right. left. reflexivity. }
  destruct (json_loads E s) as [v | e] eqn:Hloads.
  - destruct (not_dict_dec v) as [[d ->] | Hnot].
    + destruct (custom_of_params_total d) as [payload Hbuild].
      assert (Hrun := main_custom_object E s d payload
                        Hne Hcommon Hoverride Hloads Hbuild).
      exists [EvPrint (Lit "Send custom message.");
              EvPrint (Lit "FCM request body for message using common notification object:")],
             payload.
      split; [exact Hrun |].
      split; [apply (Hsplit
              [EvPrint (Lit "Send custom message.");
               EvPrint (Lit "FCM request body for message using common notification object:")]
              payload Hrun); reflexivity |].
      right. right. reflexivity.
    + exfalso. apply (Hstop (Raise AttributeError)).
      apply (main_custom_not_dict E s v); assumption.
  - exfalso. apply (Hstop (Raise e)).
    apply main_custom_parse_error; assumption.
Qed.

(** X6: when [requests.post] raises instead of answering, the exception
    escapes: the run is the headings of its branch, the indented dump
    of the payload, the token exchange and the POST, which is its last
    event and its only POST; neither the success line nor the failure
    line is printed anywhere in the run; the exit status is 1. *)
Theorem post_exception_escapes
  (E : Env) (message : option string) (req : request) (e : exn)
  (Hsent : In (EvPost req) (events (main E message)))
  (Hraise : http_post E req = Raise e) :
  exists (pre : list event) (payload : value),
    events (main E message)
    = pre ++ [EvPrint (Dumps (Some 2%nat) payload); EvAccessToken; EvPost req]
    /\ (pre = [EvPrint (Lit "FCM request body for message using common notification object:")]
        \/ pre = [EvPrint (Lit "FCM request body for override message:")]
        \/ pre = [EvPrint (Lit "Send custom message.");
                  EvPrint (Lit "FCM request body for message using common notification object:")])
    /\ ~ In (EvPrint (Lit "Message sent to Firebase for delivery, response:"))
           (events (main E message))
    /\ ~ In (EvPrint (Lit "Unable to send message to Firebase"))
           (events (main E message))
    /\ posts (events (main E message)) = [req]
    /\ outcome (main E message) = Raise e
    /\ exit_status (main E message) = 1%Z.
Proof.
  destruct (main_posting_run E message req Hsent)
    as (pre & payload & Hrun & Hin & Hpre).
  rewrite Hrun, (send_fcm_message_refused E payload req e Hin Hraise).
  unfold exit_status. cbn [events outcome].
  exists pre, payload. rewrite <- app_assoc. cbn [app].
  split; [reflexivity |]. split; [exact Hpre |].
  destruct Hpre as [-> | [-> | ->]]; cbn [app In posts];
    (split; [intros Hline; repeat (destruct Hline as [Hline | Hline];
                                   [discriminate Hline |]); exact Hline |]);
    (split; [intros Hline; repeat (destruct Hline as [Hline | Hline];
                                   [discriminate Hline |]); exact Hline |]);
    repeat split; reflexivity.
Qed.

Lemma post_exception_escapes_witness :
  let E := env_answering (Raise (LibraryError "ConnectionError")) in
  events (main E (Some "{}")) =
    [EvPrint (Lit "Send custom message.");
     EvPrint (Lit "FCM request body for message using common notification object:");
     EvPrint (Dumps (Some 2%nat)
                (PyDict [("message", PyDict [
                   ("topic", PyNone);
                   ("notification", PyDict [
                      ("title", PyNone); ("body", PyNone)]);
                   ("data", PyNone);
                   ("delivery_receipt_requested", PyBool true)])]));
     EvAccessToken;
     EvPost
       (MkRequest
          "https://fcm.googleapis.com/v1/projects/demo-project/messages:send"
          (Dumps None
             (PyDict [("message", PyDict [
                ("topic", PyNone);
                ("notification", PyDict [
                   ("title", PyNone); ("body", PyNone)]);
                ("data", PyNone);
                ("delivery_receipt_requested", PyBool true)])]))
          [("Authorization", "Bearer ya29.c0ffee");
           ("Content-Type", "application/json; UTF-8")])]
  /\ outcome (main E (Some "{}")) = Raise (LibraryError "ConnectionError").
Proof.
  cbv zeta.
  edestruct (post_exception_escapes
               (env_answering (Raise (LibraryError "ConnectionError")))
               (Some "{}"))
    as (pre & payload & _ & _ & _ & _ & _ & Houtcome & _).
  - cbn. do 4 right. left. reflexivity.
  - reflexivity.
  - split; [reflexivity | exact Houtcome].
Defined.

(** X7: whatever the argument and the answers of the libraries, a run
    makes at most two network calls, at most one of them a POST. *)
Theorem at_most_two_network_calls (E : Env) (message : option string) :
  (network_calls (events (main E message)) <= 2)%nat
  /\ (length (posts (events (main E message))) <= 1)%nat.
Proof.
  destruct (main_run E message)
    as [Hrun | [(s & e' & _ & _ & _ & _ & Hrun & _)
               | (pre & payload & Hrun & Hposts & Hcalls)]];
    rewrite Hrun; cbn [events].
  - cbn. lia.
  - cbn. lia.
  - rewrite !network_calls_app, !posts_app, Hposts, Hcalls.
    cbn [posts network_calls app Nat.add].
    split; [apply network_calls_send |].
    rewrite send_fcm_message_run.
    destruct (access_token E); cbv zeta; [destruct (http_post E _) |];
      cbn; lia.
Qed.

(** X8: in every run that POSTs, the body sent is [json.dumps] of the
    very payload whose indented dump was printed just before; the token
    is asked for between the two, the request goes to [FCM_URL], and no
    network call comes before the token exchange or after the POST. *)
Theorem printed_payload_is_sent_payload
  (E : Env) (message : option string) (req : request)
  (Hsent : In (EvPost req) (events (main E message))) :
  exists (pre : list event) (payload : value) (rest : list event),
    events (main E message)
    = pre ++ [EvPrint (Dumps (Some 2%nat) payload);
              EvAccessToken; EvPost req] ++ rest
    /\ data req = Dumps None payload
    /\ url req = FCM_URL E
    /\ network_calls pre = 0%nat
    /\ network_calls rest = 0%nat.
Proof.
  destruct (main_run E message)
    as [Hrun | [(s & e' & _ & _ & _ & _ & Hrun & _)
               | (pre & payload & Hrun & Hposts & Hcalls)]].
  - exfalso. rewrite Hrun in Hsent. destruct Hsent as [Hin | []].
    discriminate Hin.
  - exfalso. rewrite Hrun in Hsent. destruct Hsent as [Hin | []].
    discriminate Hin.
  - assert (Hin : In (EvPost req) (events (_send_fcm_message E payload))).
    { rewrite Hrun in Hsent. cbn [events] in Hsent.
      apply (in_post_split (pre ++ [EvPrint (Dumps (Some 2%nat) payload)]));
        [rewrite posts_app, Hposts; reflexivity | exact Hsent]. }
    destruct (send_fcm_message_posted E payload req Hin)
      as (token & rest & _ & Hreq & Hevents & _ & Hrest).
    exists pre, payload, rest.
    rewrite Hrun. cbn [events]. rewrite Hevents, <- app_assoc.
    split; [reflexivity |].
    rewrite Hreq. repeat split; assumption.
Qed.

Lemma printed_payload_is_sent_payload_witness :
  exists (pre : list event) (payload : value) (rest : list event),
    events (main example_env (Some "{}"))
    = pre ++ [EvPrint (Dumps (Some 2%nat) payload);
              EvAccessToken;
              EvPost
                (MkRequest
                   "https://fcm.googleapis.com/v1/projects/demo-project/messages:send"
                   (Dumps None
                      (PyDict [("message", PyDict [
                         ("topic", PyNone);
                         ("notification", PyDict [
                            ("title", PyNone); ("body", PyNone)]);
                         ("data", PyNone);
                         ("delivery_receipt_requested", PyBool true)])]))
                   [("Authorization", "Bearer ya29.c0ffee");
                    ("Content-Type", "application/json; UTF-8")])] ++ rest
    /\ Dumps None
         (PyDict [("message", PyDict [
            ("topic", PyNone);
            ("notification", PyDict [("title", PyNone); ("body", PyNone)]);
            ("data", PyNone);
            ("delivery_receipt_requested", PyBool true)])])
       = Dumps None payload.
Proof.
  edestruct (printed_payload_is_sent_payload example_env (Some "{}"))
    as (pre & payload & rest & Hevents & Hdata & _).
  - cbn. do 4 right. left. reflexivity.
  - exists pre, payload, rest. split; [exact Hevents | exact Hdata].
Defined.

(** X10: the two fixed names are dispatched before any parsing: for
    [common-message] ([override-message]) the run prints its heading
    and the indented dump of the common (override) envelope and then
    sends that envelope, whatever [json.loads] would make of the name. *)
Theorem fixed_names_send_fixed_envelopes (E : Env) :
  exists common override : value,
    _build_common_message = Ok common
    /\ _build_override_message = Ok override
    /\ main E (Some "common-message") =
       MkIO ([EvPrint (Lit "FCM request body for message using common notification object:");
              EvPrint (Dumps (Some 2%nat) common)]
             ++ events (_send_fcm_message E common))
            (outcome (_send_fcm_message E common))
    /\ main E (Some "override-message") =
       MkIO ([EvPrint (Lit "FCM request body for override message:");
              EvPrint (Dumps (Some 2%nat) override)]
             ++ events (_send_fcm_message E override))
            (outcome (_send_fcm_message E override)).
Proof.
  destruct (main_common E) as (common & Hcommon & Hrun_common).
  destruct (main_override E) as (override & Hoverride & Hrun_override).
  exists common, override. repeat split; assumption.
Qed.

(* ================================================================== *)
(** ** The module-level code *)

Lemma io_eta {A : Type} (run : io A) :
  MkIO (events run) (outcome run) = run.
Proof. destruct run. reflexivity. Qed.

Lemma script_after_module_level (H : Host) (message : option string) :
  script H message =
  match module_level H with
  | Ok E => main E message
  | Raise e => MkIO [] (Raise e)
  end.
Proof.
  unfold script. cbn -[main module_level]. unfold io_bind, lift.
  cbn -[main module_level].
  destruct (module_level H) as [E | e]; [| reflexivity].
  destruct (outcome (main E message)) eqn:Hout;
    rewrite <- Hout; apply io_eta.
Qed.

(** Every request [main] POSTs goes to [FCM_URL]. *)
Lemma main_post_url (E : Env) (message : option string) (req : request) :
  In (EvPost req) (events (main E message)) -> url req = FCM_URL E.
Proof.
  intros Hsent.
  destruct (main_run E message)
    as [Hrun | [(s & e' & _ & _ & _ & _ & Hrun & _)
               | (pre & payload & Hrun & Hposts & Hcalls)]].
  - exfalso. rewrite Hrun in Hsent. destruct Hsent as [Hin | []].
    discriminate Hin.
  - exfalso. rewrite Hrun in Hsent. destruct Hsent as [Hin | []].
    discriminate Hin.
  - rewrite Hrun in Hsent. cbn [events] in Hsent.
    apply (in_post_split (pre ++ [EvPrint (Dumps (Some 2%nat) payload)]))
      in Hsent; [| rewrite posts_app, Hposts; reflexivity].
    destruct (send_fcm_message_posted E payload req Hsent)
      as (token & rest & _ & Hreq & _).
    rewrite Hreq. reflexivity.
Qed.

(** X11: when the key file cannot be read, or its text is not JSON, the
    exception escapes from the module-level code: [main] is never
    called, so nothing is printed, not even the usage text of a run
    without [--message]. *)
Theorem script_needs_readable_key_file
  (H : Host) (message : option string) (e : exn)
  (Hfail : read_text H (SERVICE_ACCOUNT_PATH H) = Raise e
           \/ exists content : string,
                read_text H (SERVICE_ACCOUNT_PATH H) = Ok content
                /\ host_json_loads H content = Raise e) :
  script H message = MkIO [] (Raise e)
  /\ exit_status (script H message) = 1%Z.
Proof.
  assert (Hmodule : module_level H = Raise e).
  { unfold module_level, load_project_id.
    destruct Hfail as [Hread | (content & Hread & Hloads)].
    - rewrite Hread. reflexivity.
    - rewrite Hread. cbn -[get]. rewrite Hloads. reflexivity. }
  rewrite script_after_module_level, Hmodule. split; reflexivity.
Qed.

Lemma script_needs_readable_key_file_witness :
  let H := host_with_key_file (Raise (LibraryError "FileNotFoundError")) in
  SERVICE_ACCOUNT_PATH H = "/srv/fcm/service-account.json"
  /\ script H None = MkIO [] (Raise (LibraryError "FileNotFoundError"))
  /\ exit_status (script H None) = 1%Z.
Proof.
  cbv zeta. split; [reflexivity |].
  apply script_needs_readable_key_file.
  left. reflexivity.
Defined.

(** X12: when the key file parses but gives no string for
    [project_id], the module-level code raises before [main] is called
    and nothing is printed: [TypeError] from the concatenation on line
    26 when the file is an object whose [project_id] is missing, null or
    not a string, [AttributeError] from [.get] when it is not an object. *)
Theorem script_needs_project_id
  (H : Host) (message : option string) (content : string) (v : value)
  (Hread : read_text H (SERVICE_ACCOUNT_PATH H) = Ok content)
  (Hloads : host_json_loads H content = Ok v)
  (Hmissing : forall (d : dict) (p : string),
                v = PyDict d -> dict_lookup d "project_id" <> Some (PyStr p)) :
  script H message =
  MkIO [] (Raise (match v with
                  | PyDict _ => TypeError
                  | _ => AttributeError
                  end)).
Proof.
  assert (Hmodule : module_level H
                    = Raise (match v with
                             | PyDict _ => TypeError
                             | _ => AttributeError
                             end)).
  { unfold module_level, load_project_id.
    rewrite Hread. cbn -[get]. rewrite Hloads. cbn -[get].
    destruct v; try reflexivity.
    rewrite get_dict. cbn.
    destruct (dict_lookup d "project_id") as [id |] eqn:Hid; [| reflexivity].
    destruct id; try reflexivity.
    exfalso. apply (Hmissing d s eq_refl). exact Hid. }
  rewrite script_after_module_level, Hmodule. reflexivity.
Qed.

Lemma script_needs_project_id_witness :
  script (host_with_key_file (Ok "{}")) None = MkIO [] (Raise TypeError)
  /\ script (host_with_key_file (Ok "[]")) None
     = MkIO [] (Raise AttributeError).
Proof.
  split.
  - apply (script_needs_project_id (host_with_key_file (Ok "{}")) None
             "{}" (PyDict [])); try reflexivity.
    intros d p Hd. injection Hd as <-. discriminate.
  - apply (script_needs_project_id (host_with_key_file (Ok "[]")) None
             "[]" (PyList [])); try reflexivity.
    intros d p Hd. discriminate Hd.
Defined.

(** X13: when the key file is a JSON object whose [project_id] is the
    string [p], the script is [main] run with [PROJECT_ID = p], with the
    token exchanged for the key file next to the script and the scope
    [firebase.messaging]; every request it POSTs goes to
    [https://fcm.googleapis.com/v1/projects/p/messages:send]. *)
Theorem script_runs_main_for_project
  (H : Host) (message : option string) (content : string)
  (d : dict) (p : string)
  (Hread : read_text H (SERVICE_ACCOUNT_PATH H) = Ok content)
  (Hloads : host_json_loads H content = Ok (PyDict d))
  (Hid : dict_lookup d "project_id" = Some (PyStr p)) :
  script H message =
  main (MkEnv p
          (host_json_loads H)
          (oauth_exchange H
             (dirname H (script_file H) ++ "/service-account.json")%string
             ["https://www.googleapis.com/auth/firebase.messaging"])
          (host_http_post H))
       message
  /\ (forall req : request,
        In (EvPost req) (events (script H message)) ->
        url req
        = ("https://fcm.googleapis.com/v1/projects/" ++ p
             ++ "/messages:send")%string).
Proof.
  assert (Hmodule : module_level H
                    = Ok (MkEnv p (host_json_loads H)
                            (oauth_exchange H (SERVICE_ACCOUNT_PATH H) SCOPES)
                            (host_http_post H))).
  { unfold module_level, load_project_id.
    rewrite Hread. cbn -[get]. rewrite Hloads. cbn -[get].
    rewrite get_dict, Hid. reflexivity. }
  rewrite script_after_module_level, Hmodule.
  split; [reflexivity |].
  intros req Hsent. apply main_post_url in Hsent. exact Hsent.
Qed.

Lemma script_runs_main_for_project_witness :
  let H := host_with_key_file (Ok demo_key_text) in
  posts (events (script H (Some "common-message"))) =
  [MkRequest
     "https://fcm.googleapis.com/v1/projects/demo-project/messages:send"
     (Dumps None
        (PyDict [("message", PyDict [
           ("topic", PyStr "news");
           ("notification", PyDict [
              ("title", PyStr "FCM Notification");
              ("body", PyStr "Notification from FCM")])])]))
     [("Authorization", "Bearer ya29.c0ffee");
      ("Content-Type", "application/json; UTF-8")]].
Proof.
  cbv zeta.
  destruct (script_runs_main_for_project
              (host_with_key_file (Ok demo_key_text))
              (Some "common-message") demo_key_text
              [("project_id", PyStr "demo-project")] "demo-project"
              eq_refl eq_refl eq_refl) as [Hrun _].
  rewrite Hrun. reflexivity.
Defined.
